(** * Nightwatch: the text expectation and the test reporter

    A shallow embedding of [lib/api/expect/text.js] and
    [lib/reporter/index.js], with the properties of the assertion
    handlers, of the counting rule used on failures and errors, of the
    failure summary and of the failure screenshot. *)

From Stdlib Require Import ZArith List Bool String Ascii Lia.
From Stdlib Require Import DecimalString DecimalZ.
Import ListNotations.

Local Open Scope Z_scope.
Local Open Scope string_scope.

(** ** JavaScript values

    The fragment of the value domain the two files rely on: the flags of an
    error object are tested for truthiness and for being [undefined], numbers
    are interpolated in strings. *)

Module JS.

Inductive value : Type :=
| VUndefined
| VNull
| VBool (b : bool)
| VNum (n : Z)
| VStr (s : string)
| VObject.

(** ToBoolean. *)
Definition toBoolean (v : value) : bool :=
  match v with
  | VUndefined | VNull => false
  | VBool b => b
  | VNum n => negb (n =? 0)%Z
  | VStr s => negb (s =? "")%string
  | VObject => true
  end.

(** [a || b] returns [a] when it is truthy, [b] otherwise. *)
Definition or (a b : value) : value := if toBoolean a then a else b.

(** [Utils.isUndefined]. *)
Definition isUndefined (v : value) : bool :=
  match v with VUndefined => true | _ => false end.

(** An integer interpolated in a string or a template literal. *)
Definition numberToString (n : Z) : string :=
  NilEmpty.string_of_int (Z.to_int n).

(** [xs.push(x)]. *)
Definition push {A : Type} (xs : list A) (x : A) : list A :=
  (xs ++ [x])%list.

(** [xs.join(sep)]. *)
Fixpoint join (sep : string) (xs : list string) : string :=
  match xs with
  | [] => ""
  | [x] => x
  | x :: rest => x ++ sep ++ join sep rest
  end.

End JS.

(** ** The text expectation ([lib/api/expect/text.js])

    [TextAssertion] inherits from the base assertion, which owns the polling
    loop and declares the fields below; the two handlers [elementFound] and
    [elementNotFound] are what text.js adds. *)

Module TextAssertion.

Record t : Type := mk {
  passed : bool;
  negate : bool;
  retries : Z;
  waitForMs : JS.value;
  elapsedTime : JS.value;
  messageParts : list string;
  message : string
}.

Definition set_passed (b : bool) (a : t) : t :=
  mk b (negate a) (retries a) (waitForMs a) (elapsedTime a)
     (messageParts a) (message a).

Definition set_elapsedTime (v : JS.value) (a : t) : t :=
  mk (passed a) (negate a) (retries a) (waitForMs a) v
     (messageParts a) (message a).

(** [this.messageParts.push(part)]. *)
Definition push_messagePart (part : string) (a : t) : t :=
  mk (passed a) (negate a) (retries a) (waitForMs a) (elapsedTime a)
     (JS.push (messageParts a) part) (message a).

(** The message the constructor installs. *)
Definition initial_message (neg : bool) : string :=
  "Expected element <%s> text to" ++ (if neg then " not" else "").

Section Handlers.

(** Inherited from the base assertion: whether one of the conditions
    (equal, contain, match) was requested, and the time since the
    expectation started, in milliseconds. *)
Variable hasCondition : t -> bool.
Variable getElapsedTime : t -> Z.

(** The fragment [elementFound] appends. *)
Definition elapsed_part (msg : string) (elapsed : Z) : string :=
  " - " ++ msg ++ " in " ++ JS.numberToString elapsed ++ "ms".

Definition elementFound (a : t) : t :=
  if (0 <? retries a)%Z && negate a then a
  else if passed a && JS.toBoolean (waitForMs a) then
    let message := if hasCondition a then "condition was met" else "" in
    let elapsed := getElapsedTime a in
    push_messagePart (elapsed_part message elapsed)
                     (set_elapsedTime (JS.VNum elapsed) a)
  else a.

Definition elementNotFound (a : t) : t := set_passed false a.

End Handlers.

End TextAssertion.

(** ** The reporter ([lib/reporter/index.js]) *)

Module Reporter.

(** The flags of an error object the reporter reads. *)
Record Err : Type := mkErr {
  incrementErrorCount : JS.value;
  incrementErrorsNo : JS.value;
  detailedLogging : JS.value
}.

(** An entry of the assertion log, as [printAssertions] reads it. *)
Record AssertResult : Type := mkAssertResult {
  fullMsg : string;
  failure : JS.value;
  stackTrace : string
}.

Record TestCase : Type := mkTestCase { testName : string }.

Record TestResult : Type := mkTestResult {
  passed : Z;
  failed : Z;
  errors : Z;
  skipped : Z;
  tests : Z;
  assertions : list AssertResult;
  screenshots : list string;
  lastError : option Err
}.

(** The state of [TestResults] the reporter reaches through
    [this.testResults]. *)
Record TestResults : Type := mkTestResults {
  currentTestCase : option TestCase;
  moduleKey : string;
  groupName : string;
  currentTestResult : TestResult
}.

Definition map_currentTestResult (f : TestResult -> TestResult)
           (rs : TestResults) : TestResults :=
  mkTestResults (currentTestCase rs) (moduleKey rs) (groupName rs)
                (f (currentTestResult rs)).

(** *** The ledger operations of [results.js] *)

(** Modelled from the spec: [TestResults.setLastError] of results.js, which
    is not part of the sources at hand; it replaces [lastError]. *)
Definition setLastError (err : Err) (rs : TestResults) : TestResults :=
  map_currentTestResult
    (fun tr => mkTestResult (passed tr) (failed tr) (errors tr) (skipped tr)
                 (tests tr) (assertions tr) (screenshots tr) (Some err)) rs.

(** Modelled from the spec: [TestResults.incrementFailedCount] of
    results.js; it mutates the count of the current test result only if
    its argument is true. *)
Definition incrementFailedCount (shouldCount : bool) (rs : TestResults)
  : TestResults :=
  map_currentTestResult
    (fun tr => mkTestResult (passed tr)
                 (if shouldCount then failed tr + 1 else failed tr)%Z
                 (errors tr) (skipped tr) (tests tr) (assertions tr)
                 (screenshots tr) (lastError tr)) rs.

(** Modelled from the spec: [TestResults.incrementPassedCount] of
    results.js; the passed count is incremented unconditionally. *)
Definition incrementPassedCount (rs : TestResults) : TestResults :=
  map_currentTestResult
    (fun tr => mkTestResult (passed tr + 1)%Z (failed tr) (errors tr)
                 (skipped tr) (tests tr) (assertions tr) (screenshots tr)
                 (lastError tr)) rs.

(** Modelled from the spec: [TestResults.logAssertion] of results.js; it
    appends to the assertion log of the current test result,
    unconditionally. *)
Definition logAssertion (result : AssertResult) (rs : TestResults)
  : TestResults :=
  map_currentTestResult
    (fun tr => mkTestResult (passed tr) (failed tr) (errors tr) (skipped tr)
                 (tests tr) (JS.push (assertions tr) result)
                 (screenshots tr) (lastError tr)) rs.

(** Modelled from the spec: [TestResults.logScreenshotFile] of results.js;
    it appends to the screenshot log of the current test result. *)
Definition logScreenshotFile (fileName : string) (rs : TestResults)
  : TestResults :=
  map_currentTestResult
    (fun tr => mkTestResult (passed tr) (failed tr) (errors tr) (skipped tr)
                 (tests tr) (assertions tr)
                 (JS.push (screenshots tr) fileName) (lastError tr)) rs.

(** *** Settings and the reporter object *)

Record ScreenshotSettings : Type := mkScreenshotSettings {
  enabled : bool;
  on_error : bool;
  on_failure : bool;
  path : string
}.

Record Settings : Type := mkSettings {
  unit_tests_mode : bool;
  detailed_output : bool;
  start_session : bool;
  screenshots_settings : option ScreenshotSettings
}.

Record Context : Type := mkContext { ctx_unitTestsMode : bool }.

(** The suite-retry registry: its single query. *)
Record SuiteRetries : Type := mkSuiteRetries {
  shouldRetryTest : string -> bool
}.

Record t : Type := mk {
  settings : Settings;
  suiteRetries : option SuiteRetries;
  suiteName : string;
  testResults : TestResults;
  currentContext : option Context
}.

Definition map_testResults (f : TestResults -> TestResults) (r : t) : t :=
  mk (settings r) (suiteRetries r) (suiteName r) (f (testResults r))
     (currentContext r).

(** What the [currentTest] getter returns when there is a test case. *)
Record CurrentTest : Type := mkCurrentTest {
  name : string;
  module : string;
  group : string;
  results : TestResult
}.

Definition currentTest (r : t) : option CurrentTest :=
  match currentTestCase (testResults r) with
  | None => None
  | Some tc =>
      Some (mkCurrentTest (testName tc) (moduleKey (testResults r))
              (groupName (testResults r))
              (currentTestResult (testResults r)))
  end.

Definition unitTestsMode (r : t) : bool :=
  match currentContext r with
  | Some ctx => ctx_unitTestsMode ctx
  | None => unit_tests_mode (settings r)
  end.

(** *** Counting rule *)

(** [this.currentTest && this.suiteRetries &&
     this.suiteRetries.shouldRetryTest(this.currentTest.name)]:
    the chain stops at the first falsy operand and returns it. *)
Definition shouldRetryTestcase (r : t) : JS.value :=
  match currentTest r with
  | None => JS.VNull
  | Some ct =>
      match suiteRetries r with
      | None => JS.VUndefined
      | Some sr => JS.VBool (shouldRetryTest sr (name ct))
      end
  end.

Definition shouldIncrementTotalCount (r : t) (err : Err) : JS.value :=
  let incrementTotalCount :=
    JS.or (incrementErrorCount err)
          (JS.VBool (JS.isUndefined (incrementErrorCount err))) in
  if JS.toBoolean (JS.or (incrementErrorsNo err) (shouldRetryTestcase r))
  then JS.VBool false
  else incrementTotalCount.

(** *** Results logging *)

Definition logAssertResult (result : AssertResult) (r : t) : t :=
  map_testResults (logAssertion result) r.

(** The console line [registerPassed] prints is not part of the state. *)
Definition registerPassed (message : string) (r : t) : t :=
  map_testResults incrementPassedCount r.

(** [setLastError] runs first, the argument of [incrementFailedCount] is
    computed next. *)
Definition registerFailed (err : Err) (r : t) : t :=
  let r1 := map_testResults (setLastError err) r in
  map_testResults
    (incrementFailedCount (JS.toBoolean (shouldIncrementTotalCount r1 err)))
    r1.

(** *** Failure summary *)

(** [Logger.colors.red], [green] and [blue] applied to a count: the
    rendering of the number, wrapped in whatever the logger adds. *)
Record Colors : Type := mkColors {
  red : Z -> string;
  green : Z -> string;
  blue : Z -> string
}.

(** Colours switched off: the number is printed as it is. *)
Definition plain : Colors :=
  mkColors JS.numberToString JS.numberToString JS.numberToString.

(** [[^,]*$]: the rest of the input holds no comma. *)
Fixpoint no_comma (s : string) : bool :=
  match s with
  | EmptyString => true
  | String c rest => negb (c =? ",")%char && no_comma rest
  end.

(** The [replace] of [getFailureMessage]. Its pattern is a comma, then a
    group [p1] of characters other than a comma, then the end of the
    input; the search tries each position from the left. The match is
    replaced by [" and "] followed by [p1]. *)
Fixpoint replace_final_comma (s : string) : string :=
  match s with
  | EmptyString => EmptyString
  | String c rest =>
      if (c =? ",")%char && no_comma rest
      then " and " ++ rest
      else String c (replace_final_comma rest)
  end.

(** The array [failureMsg] after the four conditional pushes. *)
Definition failureMsg (c : Colors) (tr : TestResult) : list string :=
  let failureMsg0 : list string := [] in
  let failureMsg1 :=
    if (0 <? failed tr)%Z
    then JS.push failureMsg0 (red c (failed tr) ++ " assertions failed")
    else failureMsg0 in
  let failureMsg2 :=
    if (0 <? errors tr)%Z
    then JS.push failureMsg1 (red c (errors tr) ++ " errors")
    else failureMsg1 in
  let failureMsg3 :=
    if (0 <? passed tr)%Z
    then JS.push failureMsg2 (green c (passed tr) ++ " passed")
    else failureMsg2 in
  if (0 <? skipped tr)%Z
  then JS.push failureMsg3 (blue c (skipped tr) ++ " skipped")
  else failureMsg3.

Definition getFailureMessage (c : Colors) (r : t) : string :=
  replace_final_comma
    (JS.join ", " (failureMsg c (currentTestResult (testResults r)))).

(** *** Screenshots *)

Definition shouldTakeFailureScreenshot (r : t) : bool :=
  negb (unitTestsMode r) &&
  match screenshots_settings (settings r) with
  | Some sc => enabled sc && on_failure sc
  | None => false
  end.

(** What a call does that can be observed, in program order: a write to
    the screenshot log of the ledger, a request to the screenshot
    service. *)
Inductive Event : Type :=
| ScreenshotFileLogged (fileName : string)
| SaveScreenshotRequested (fileName : string).

(** The promise an [async] method returns: fulfilled when the body returns
    nothing, rejected when the body throws, pending while the service has
    not yet called [resolve]. *)
Inductive Promise : Type :=
| Fulfilled
| Rejected
| Pending.

Record Outcome : Type := mkOutcome {
  reporter_after : t;
  trace : list Event;
  promise : Promise
}.

(** The service is done with the request and calls the callback it was
    given, [resolve]: the promise settles, nothing else is touched. *)
Definition serviceCompleted (o : Outcome) : Outcome :=
  match promise o with
  | Pending => mkOutcome (reporter_after o) (trace o) Fulfilled
  | _ => o
  end.

Section Screenshots.

(** [Screenshots.getFileName(prefix, isError, path)] of the utilities. *)
Variable getFileName : string -> bool -> string -> string.

Definition screenshot_prefix (ct : CurrentTest) : string :=
  module ct ++ "/" ++ name ct ++ "-test-"
         ++ JS.numberToString (tests (results ct)).

Definition saveFailureScreenshot (isError : bool) (r : t) : Outcome :=
  if shouldTakeFailureScreenshot r then
    match currentTest r, screenshots_settings (settings r) with
    | Some ct, Some sc =>
        let prefix := screenshot_prefix ct in
        let fileName := getFileName prefix isError (path sc) in
        let r1 := map_testResults (logScreenshotFile fileName) r in
        mkOutcome r1
                  [ScreenshotFileLogged fileName;
                   SaveScreenshotRequested fileName]
                  Pending
    | _, _ => mkOutcome r [] Rejected
    end
  else mkOutcome r [] Fulfilled.

End Screenshots.

End Reporter.

(** ** Vocabulary of the statements *)

Module Spec.

Import Reporter.

(** The current test is scheduled for retry by the suite-retry registry:
    there is a current test case, a registry was given to the reporter, and
    the registry answers yes for the name of the test. *)
Definition scheduled_for_retry (r : t) : bool :=
  match currentTestCase (testResults r), suiteRetries r with
  | Some tc, Some sr => shouldRetryTest sr (testName tc)
  | _, _ => false
  end.

(** The four categories of a summary, in the order they are printed: the
    count, how it is coloured, and its label. *)
Definition categories (c : Colors) (tr : TestResult)
  : list (Z * (Z -> string) * string) :=
  [ (failed tr, red c, " assertions failed");
    (errors tr, red c, " errors");
    (passed tr, green c, " passed");
    (skipped tr, blue c, " skipped") ].

Definition phrase (cat : Z * (Z -> string) * string) : string :=
  let '(n, colour, label) := cat in colour n ++ label.

Definition counted (cat : Z * (Z -> string) * string) : bool :=
  let '(n, _, _) := cat in (0 <? n)%Z.

(** The summary as the categories with a count above zero. *)
Definition counted_phrases (c : Colors) (tr : TestResult) : list string :=
  map phrase (filter counted (categories c tr)).

Definition nonzero_digit (ch : ascii) : bool :=
  match ch with
  | "1" | "2" | "3" | "4" | "5" | "6" | "7" | "8" | "9" => true
  | _ => false
  end%char.

(** The string starts with a digit other than zero. *)
Definition starts_with_nonzero_digit (s : string) : bool :=
  match s with
  | String ch _ => nonzero_digit ch
  | EmptyString => false
  end.

(** The ledger entry of the test that is running. *)
Definition ledger (r : t) : TestResult := currentTestResult (testResults r).

(** [s.endsWith(suffix)]. *)
Definition endsWith (s suffix : string) : bool :=
  (String.length suffix <=? String.length s)%nat &&
  (substring (String.length s - String.length suffix)
             (String.length suffix) s =? suffix)%string.

End Spec.

(** ** Scenarios *)

Module Scenario.

(** A negated expectation with a budget of five seconds, before its first
    retry: the text still has to differ. *)
Definition negated_waiting : TextAssertion.t :=
  TextAssertion.mk true true 0 (JS.VNum 5000) JS.VUndefined []
                   (TextAssertion.initial_message true).

(** The same expectation, passed on its third poll. *)
Definition negated_retried : TextAssertion.t :=
  TextAssertion.mk true true 2 (JS.VNum 5000) JS.VUndefined []
                   (TextAssertion.initial_message true).

(** A positive expectation that passed, with a budget of five seconds. *)
Definition positive_passed : TextAssertion.t :=
  TextAssertion.mk true false 1 (JS.VNum 5000) JS.VUndefined []
                   (TextAssertion.initial_message false).

Definition with_condition (_ : TextAssertion.t) : bool := true.
Definition without_condition (_ : TextAssertion.t) : bool := false.
Definition after_120ms (_ : TextAssertion.t) : Z := 120.

(** Screenshots on failure switched on, no unit-test mode. *)
Definition settings_on : Reporter.Settings :=
  Reporter.mkSettings false true true
    (Some (Reporter.mkScreenshotSettings true false true "screens")).

(** Screenshots on failure switched off. *)
Definition settings_off : Reporter.Settings :=
  Reporter.mkSettings false true true
    (Some (Reporter.mkScreenshotSettings true false false "screens")).

Definition retry_all : Reporter.SuiteRetries :=
  Reporter.mkSuiteRetries (fun _ => true).

Definition retry_none : Reporter.SuiteRetries :=
  Reporter.mkSuiteRetries (fun _ => false).

Definition fresh_result : Reporter.TestResult :=
  Reporter.mkTestResult 0 0 0 0 1 [] [] None.

(** The counts of scenario D: two failed, one error, none passed, one
    skipped. *)
Definition result_D : Reporter.TestResult :=
  Reporter.mkTestResult 0 2 1 1 1 [] [] None.

Definition reporter_with (st : Reporter.Settings)
           (sr : option Reporter.SuiteRetries)
           (tc : option Reporter.TestCase) (tr : Reporter.TestResult)
  : Reporter.t :=
  Reporter.mk st sr "suite" (Reporter.mkTestResults tc "login" "smoke" tr)
              None.

(** The test [demo] is running and the registry will retry it. *)
Definition retried : Reporter.t :=
  reporter_with settings_on (Some retry_all)
                (Some (Reporter.mkTestCase "demo")) fresh_result.

(** The test [demo] is running and will not be retried. *)
Definition not_retried : Reporter.t :=
  reporter_with settings_on (Some retry_none)
                (Some (Reporter.mkTestCase "demo")) fresh_result.

(** No test case is current; the registry would retry any name. *)
Definition no_test_case : Reporter.t :=
  reporter_with settings_on (Some retry_all) None fresh_result.

Definition screenshots_off : Reporter.t :=
  reporter_with settings_off (Some retry_none)
                (Some (Reporter.mkTestCase "demo")) fresh_result.

Definition reporter_D : Reporter.t :=
  reporter_with settings_on None (Some (Reporter.mkTestCase "demo"))
                result_D.

(** An error with none of its flags set, one that asks not to be counted
    now. *)
Definition plain_error : Reporter.Err :=
  Reporter.mkErr JS.VUndefined JS.VUndefined JS.VUndefined.

Definition deferred_error : Reporter.Err :=
  Reporter.mkErr JS.VUndefined (JS.VBool true) JS.VUndefined.

Definition an_assertion : Reporter.AssertResult :=
  Reporter.mkAssertResult "Expected element <#main> text to equal: X"
                          (JS.VStr "Expected X but got: Y") "at demo".

(** A file name built from the folder, the prefix and the kind. *)
Definition fileName_of (prefix : string) (isError : bool) (path : string)
  : string :=
  path ++ "/" ++ prefix ++ (if isError then "_ERROR" else "_FAILED")
       ++ ".png".

End Scenario.

(** ** Printing a result and the error screenshot ([lib/reporter/index.js]) *)

Module Report.

Import Reporter.

Definition newline_char : ascii := ascii_of_nat 10.
Definition newline : string := String newline_char EmptyString.

(** [s.split(sep)] for a separator of one character. *)
Fixpoint split (sep : ascii) (s : string) : list string :=
  match s with
  | EmptyString => [EmptyString]
  | String c rest =>
      if (c =? sep)%char then EmptyString :: split sep rest
      else match split sep rest with
           | [] => [String c EmptyString]
           | x :: xs => String c x :: xs
           end
  end.

(** [v !== false]. *)
Definition not_false (v : JS.value) : bool :=
  match v with
  | JS.VBool false => false
  | _ => true
  end.

(** What the printing methods hand to the console, to [Logger.error], to
    [Utils.showStackTrace] and to [Logger.logDetailedMessage] (with or
    without its second argument ['warn']), in program order. *)
Inductive Output : Type :=
| ConsoleLog (line : string)
| LoggerError (err : Err)
| ShowStackTrace (message : string)
| LogDetailedMessage (message : string) (warn : bool).

(** The lines of the stack trace with the full message put in front of
    them, joined again. *)
Definition stackTrace_message (a : AssertResult) : string :=
  let message := split newline_char (stackTrace a) in
  let message := fullMsg a :: message in
  JS.join newline message.

Definition printAssertions (testcase : TestResult) : list Output :=
  flat_map (fun a => if not_false (failure a)
                     then [ShowStackTrace (stackTrace_message a)]
                     else [])
           (assertions testcase).

(** The names under [Logger.colors] the printing methods use on text. *)
Inductive Colour : Type := Green | Red | White | Cyan | Yellow.

(** What printing takes from outside the reporter: the colour functions of the
    logger on text, the two symbols and [formatElapsedTime] of the
    utilities, and the environment variable [__NIGHTWATCH_ENV]. *)
Record Console : Type := mkConsole {
  paint : Colour -> string -> string;
  symbol_ok : string;
  symbol_fail : string;
  formatElapsedTime : Z -> string;
  nightwatch_env : string
}.

(** Reading [testName] off a missing test case throws: [None]. *)
Definition printSimplifiedTestResult (k : Console) (ok : bool)
           (elapsedTime : Z) (isChildProcess : bool) (r : t)
  : option (list Output) :=
  let result :=
    [paint k (if ok then Green else Red)
           (if ok then symbol_ok k else symbol_fail k)] in
  let result :=
    if negb (unitTestsMode r) then
      let result :=
        if isChildProcess
        then JS.push result (paint k White (nightwatch_env k))
        else result in
      JS.push result (paint k Cyan ("[" ++ suiteName r ++ "]"))
    else result in
  match currentTestCase (testResults r) with
  | None => None
  | Some tc =>
      let testName := testName tc in
      let result :=
        JS.push result (if ok then testName else paint k Red testName) in
      let result :=
        if (20 <? elapsedTime)%Z
        then JS.push result
               (paint k Yellow ("(" ++ formatElapsedTime k elapsedTime ++ ")"))
        else result in
      let line := ConsoleLog (JS.join " " result) in
      match currentTest r with
      | None => Some [line]
      | Some ct =>
          if ok then Some [line]
          else
            let results := results ct in
            match lastError results with
            | Some err =>
                if unitTestsMode r then Some [line; LoggerError err]
                else Some (line :: printAssertions results)
            | None => Some (line :: printAssertions results)
            end
      end
  end.

(** [currentTestCasePassed] and [currentTestElapsedTime] are getters of
    [results.js] and [isChildProcess] belongs to the runner: the three are
    taken as they are read. *)
Definition printTestResult (c : Colors) (k : Console)
           (currentTestCasePassed : bool) (currentTestElapsedTime : Z)
           (isChildProcess : bool) (r : t) : option (list Output) :=
  let ok := if currentTestCasePassed then true else false in
  let elapsedTime := currentTestElapsedTime in
  let currentTestResult := currentTestResult (testResults r) in
  if isChildProcess || negb (detailed_output (settings r)) || unitTestsMode r
  then printSimplifiedTestResult k ok elapsedTime isChildProcess r
  else if ok && (0 <? passed currentTestResult)%Z then
    Some [LogDetailedMessage
            (newline ++ paint k Green "OK." ++ " "
                     ++ green c (passed currentTestResult)
                     ++ " assertions passed. ("
                     ++ formatElapsedTime k elapsedTime ++ ")") false]
  else if ok && (passed currentTestResult =? 0)%Z then
    if start_session (settings r)
    then Some [LogDetailedMessage
                 (paint k Green ("No assertions ran." ++ newline)) true]
    else Some []
  else
    let failureMsg := getFailureMessage c r in
    Some [LogDetailedMessage
            (newline ++ paint k Red "FAILED:" ++ " " ++ failureMsg ++ " ("
                     ++ formatElapsedTime k elapsedTime ++ ")") false].

(** What [saveErrorScreenshot] does outside the reporter object and to the
    ledger, in program order. *)
Inductive FileEvent : Type :=
| WriteScreenshotToFile (fileName : string) (content : JS.value)
| LogScreenshotFile (fileName : string).

Section ErrorScreenshot.

(** [Screenshots.getFileName(prefix, isError, path)] of the utilities. *)
Variable getFileName : string -> bool -> string -> string.

(** Reading [on_error] off missing screenshot settings, or [module] off a
    missing current test, throws: [None]. The first argument is not read. *)
Definition saveErrorScreenshot (result screenshotContent : JS.value) (r : t)
  : option (t * list FileEvent) :=
  match screenshots_settings (settings r) with
  | None => None
  | Some sc =>
      if on_error sc && JS.toBoolean screenshotContent then
        match currentTest r with
        | None => None
        | Some ct =>
            let prefix := module ct ++ "/" ++ name ct in
            let fileName := getFileName prefix true (path sc) in
            Some (map_testResults (logScreenshotFile fileName) r,
                  [WriteScreenshotToFile fileName screenshotContent;
                   LogScreenshotFile fileName])
        end
      else Some (r, [])
  end.

End ErrorScreenshot.

(** A run of [registerFailed] over errors, first to last. *)
Definition registerFailedAll (errs : list Err) (r : t) : t :=
  fold_left (fun acc err => registerFailed err acc) errs r.


(** Colours that add no comma to a count. *)
Definition comma_free (c : Colors) : Prop :=
  forall n : Z, no_comma (red c n) = true /\ no_comma (green c n) = true /\
                no_comma (blue c n) = true.

End Report.

(** ** More scenarios *)

Module Sample.

Definition console : Report.Console :=
  Report.mkConsole (fun _ text => text) "v" "x"
                   (fun ms => JS.numberToString ms ++ "ms") "chrome".

(** Two assertions, one passed and one not. *)
Definition passed_assertion : Reporter.AssertResult :=
  Reporter.mkAssertResult "Passed." (JS.VBool false) "".

Definition mixed_result : Reporter.TestResult :=
  Reporter.mkTestResult 1 1 0 0 1
    [passed_assertion; Scenario.an_assertion] [] (Some Scenario.plain_error).

Definition failing : Reporter.t :=
  Scenario.reporter_with Scenario.settings_on (Some Scenario.retry_none)
                         (Some (Reporter.mkTestCase "demo")) mixed_result.

(** The same reporter inside a context that runs unit tests. *)
Definition failing_unit : Reporter.t :=
  Reporter.mk Scenario.settings_on (Some Scenario.retry_none) "suite"
              (Reporter.testResults failing)
              (Some (Reporter.mkContext true)).

(** Screenshots on errors wanted, everything else switched off. *)
Definition error_only : Reporter.t :=
  Reporter.mk
    (Reporter.mkSettings true true true
       (Some (Reporter.mkScreenshotSettings false true false "screens")))
    None "suite"
    (Reporter.mkTestResults (Some (Reporter.mkTestCase "demo")) "login"
                            "smoke" Scenario.fresh_result)
    None.

End Sample.

(** ** The handlers of the text expectation *)

Section TextAssertionFacts.

Import TextAssertion.

Variable hasCondition : t -> bool.
Variable getElapsedTime : t -> Z.

Lemma elementFound_passed (a : t) :
  passed (elementFound hasCondition getElapsedTime a) = passed a.
Proof.
  unfold elementFound.
  destruct ((0 <? retries a)%Z && negate a); [reflexivity |].
  destruct (passed a && JS.toBoolean (waitForMs a)); reflexivity.
Qed.

Lemma elementFound_not_passed (a : t) :
  passed a = false -> elementFound hasCondition getElapsedTime a = a.
Proof.
  intros H. unfold elementFound. rewrite H. simpl.
  destruct ((0 <? retries a)%Z && negate a); reflexivity.
Qed.

End TextAssertionFacts.

(** C2, as the handler has it: when the lookup of a negated expectation
    reports the element absent, [elementNotFound] leaves the passed flag
    false; the expectation ends as failed, not as passed. *)
Theorem elementNotFound_negated_fails (a : TextAssertion.t) :
  TextAssertion.negate a = true ->
  TextAssertion.passed (TextAssertion.elementNotFound a) = false.
Proof. intros _. reflexivity. Qed.

Lemma elementNotFound_negated_fails_witness :
  TextAssertion.negate Scenario.negated_waiting = true /\
  TextAssertion.passed
    (TextAssertion.elementNotFound Scenario.negated_waiting) = false.
Proof.
  split; [reflexivity |].
  apply (elementNotFound_negated_fails Scenario.negated_waiting).
  reflexivity.
Defined.

(** C2 as it is written fails: a negated expectation whose element is
    reported absent while its budget is not used up does not end with the
    passed flag true. *)
Lemma elementNotFound_negated_not_passed :
  TextAssertion.negate Scenario.negated_waiting = true /\
  JS.toBoolean (TextAssertion.waitForMs Scenario.negated_waiting) = true /\
  TextAssertion.passed
    (TextAssertion.elementNotFound Scenario.negated_waiting) <> true.
Proof. repeat split. discriminate. Qed.

(** C3: on a negated expectation that has retries behind it
    ([retries > 0] and [negate]), [elementFound] returns at once: the whole
    assertion, and so its passed flag, elapsed time and message parts, is as
    it was, and the handler records no failure. *)
Theorem elementFound_negated_retrying_unchanged
        (hasCondition : TextAssertion.t -> bool)
        (getElapsedTime : TextAssertion.t -> Z) (a : TextAssertion.t) :
  (0 < TextAssertion.retries a)%Z ->
  TextAssertion.negate a = true ->
  let a' := TextAssertion.elementFound hasCondition getElapsedTime a in
  a' = a /\
  TextAssertion.passed a' = TextAssertion.passed a /\
  TextAssertion.elapsedTime a' = TextAssertion.elapsedTime a /\
  TextAssertion.messageParts a' = TextAssertion.messageParts a.
Proof.
  intros Hretries Hnegate a'.
  assert (E : a' = a).
  { subst a'. unfold TextAssertion.elementFound.
    apply Z.ltb_lt in Hretries. now rewrite Hretries, Hnegate. }
  rewrite E. repeat split.
Qed.

Lemma elementFound_negated_retrying_unchanged_witness :
  TextAssertion.elementFound Scenario.with_condition Scenario.after_120ms
                             Scenario.negated_retried
  = Scenario.negated_retried.
Proof.
  apply (elementFound_negated_retrying_unchanged
           Scenario.with_condition Scenario.after_120ms
           Scenario.negated_retried); [reflexivity | reflexivity].
Defined.

(** C4: [elementNotFound] sets the passed flag to false whatever the
    assertion, and touches nothing else: the retry count, the budget, the
    negation, the elapsed time and the messages are as they were. The found
    handler never writes the flag: with a predicate that came out false it
    leaves the assertion as it is. *)
Theorem elementNotFound_sets_passed_false
        (hasCondition : TextAssertion.t -> bool)
        (getElapsedTime : TextAssertion.t -> Z) (a : TextAssertion.t) :
  let a' := TextAssertion.elementNotFound a in
  TextAssertion.passed a' = false /\
  TextAssertion.retries a' = TextAssertion.retries a /\
  TextAssertion.waitForMs a' = TextAssertion.waitForMs a /\
  TextAssertion.negate a' = TextAssertion.negate a /\
  TextAssertion.elapsedTime a' = TextAssertion.elapsedTime a /\
  TextAssertion.messageParts a' = TextAssertion.messageParts a /\
  TextAssertion.message a' = TextAssertion.message a /\
  TextAssertion.passed
    (TextAssertion.elementFound hasCondition getElapsedTime a)
  = TextAssertion.passed a /\
  TextAssertion.elementFound hasCondition getElapsedTime a' = a'.
Proof.
  intros a'. repeat split.
  - apply elementFound_passed.
  - apply elementFound_not_passed. reflexivity.
Qed.

(** C5, as the handler has it: for an assertion that passed with a budget
    other than zero, and that is not a negated assertion with retries behind
    it, [elementFound] stores the measured time and appends one part,
    [" - <message> in <elapsed>ms"], where the message is
    ["condition was met"] when a condition was requested and empty
    otherwise. *)
Theorem elementFound_passed_annotates
        (hasCondition : TextAssertion.t -> bool)
        (getElapsedTime : TextAssertion.t -> Z) (a : TextAssertion.t) :
  TextAssertion.passed a = true ->
  JS.toBoolean (TextAssertion.waitForMs a) = true ->
  (0 <? TextAssertion.retries a)%Z && TextAssertion.negate a = false ->
  let a' := TextAssertion.elementFound hasCondition getElapsedTime a in
  TextAssertion.messageParts a'
  = JS.push (TextAssertion.messageParts a)
            (" - " ++ (if hasCondition a then "condition was met" else "")
                   ++ " in " ++ JS.numberToString (getElapsedTime a) ++ "ms")
  /\
  TextAssertion.elapsedTime a' = JS.VNum (getElapsedTime a) /\
  TextAssertion.passed a' = true.
Proof.
  intros Hpassed Hwait Hguard a'. subst a'.
  unfold TextAssertion.elementFound.
  rewrite Hguard, Hpassed, Hwait. simpl.
  repeat split. exact Hpassed.
Qed.

Lemma elementFound_passed_annotates_witness :
  TextAssertion.messageParts
    (TextAssertion.elementFound Scenario.with_condition Scenario.after_120ms
                                Scenario.positive_passed)
  = [" - condition was met in 120ms"].
Proof.
  apply (elementFound_passed_annotates
           Scenario.with_condition Scenario.after_120ms
           Scenario.positive_passed);
    reflexivity.
Defined.

(** C5 as it is written fails twice: a negated assertion that passed after
    retries gets no part at all, and an assertion without a condition gets a
    part that does not say the condition was met. *)
Lemma elementFound_passed_not_annotated :
  (TextAssertion.passed Scenario.negated_retried = true /\
   JS.toBoolean (TextAssertion.waitForMs Scenario.negated_retried) = true /\
   TextAssertion.messageParts
     (TextAssertion.elementFound Scenario.with_condition Scenario.after_120ms
                                 Scenario.negated_retried)
   = TextAssertion.messageParts Scenario.negated_retried) /\
  (TextAssertion.passed Scenario.positive_passed = true /\
   JS.toBoolean (TextAssertion.waitForMs Scenario.positive_passed) = true /\
   TextAssertion.messageParts
     (TextAssertion.elementFound Scenario.without_condition
                                 Scenario.after_120ms
                                 Scenario.positive_passed)
   = [" -  in 120ms"]).
Proof. repeat split. Qed.

(** ** The counting rule *)

Section CountingFacts.

Import Reporter.

Lemma toBoolean_or a b :
  JS.toBoolean (JS.or a b) = JS.toBoolean a || JS.toBoolean b.
Proof.
  unfold JS.or. destruct (JS.toBoolean a) eqn:E; [exact E | reflexivity].
Qed.

Lemma shouldRetryTestcase_scheduled (r : t) :
  JS.toBoolean (shouldRetryTestcase r) = Spec.scheduled_for_retry r.
Proof.
  unfold shouldRetryTestcase, Spec.scheduled_for_retry, currentTest.
  destruct (currentTestCase (testResults r)); [| reflexivity].
  destruct (suiteRetries r); reflexivity.
Qed.

(** The value [incrementTotalCount] starts with is [true] only for a flag
    that is [true] or undefined. *)
Lemma initial_count_true (v : JS.value) :
  JS.or v (JS.VBool (JS.isUndefined v)) = JS.VBool true <->
  v = JS.VBool true \/ v = JS.VUndefined.
Proof.
  unfold JS.or.
  destruct v as [| | [] | n | s |]; simpl;
    try (destruct (n =? 0)%Z); try (destruct (s =? "")%string); simpl;
    (split; [intros H; try discriminate H; auto
            | intros [H | H]; try discriminate H; reflexivity]).
Qed.

Lemma shouldIncrementTotalCount_cases (r : t) (err : Err) :
  shouldIncrementTotalCount r err =
  if JS.toBoolean (incrementErrorsNo err) || Spec.scheduled_for_retry r
  then JS.VBool false
  else JS.or (incrementErrorCount err)
             (JS.VBool (JS.isUndefined (incrementErrorCount err))).
Proof.
  unfold shouldIncrementTotalCount.
  now rewrite toBoolean_or, shouldRetryTestcase_scheduled.
Qed.

Lemma shouldIncrementTotalCount_setLastError (r : t) (err e : Err) :
  shouldIncrementTotalCount (map_testResults (setLastError e) r) err
  = shouldIncrementTotalCount r err.
Proof.
  unfold shouldIncrementTotalCount, shouldRetryTestcase, currentTest.
  simpl. destruct (currentTestCase (testResults r)); reflexivity.
Qed.

End CountingFacts.

(** C1: [shouldIncrementTotalCount] returns [true] exactly when the flag
    [incrementErrorCount] is [true] or undefined, [incrementErrorsNo] is not
    set (is falsy) and the current test is not scheduled for retry; read
    through truthiness the same equation holds; and a set [incrementErrorsNo]
    gives [false] whatever the registry says. *)
Theorem shouldIncrementTotalCount_spec (r : Reporter.t) (err : Reporter.Err) :
  (Reporter.shouldIncrementTotalCount r err = JS.VBool true <->
   (Reporter.incrementErrorCount err = JS.VBool true \/
    Reporter.incrementErrorCount err = JS.VUndefined) /\
   JS.toBoolean (Reporter.incrementErrorsNo err) = false /\
   Spec.scheduled_for_retry r = false) /\
  JS.toBoolean (Reporter.shouldIncrementTotalCount r err)
  = (JS.toBoolean (Reporter.incrementErrorCount err)
     || JS.isUndefined (Reporter.incrementErrorCount err))
    && negb (JS.toBoolean (Reporter.incrementErrorsNo err))
    && negb (Spec.scheduled_for_retry r) /\
  (JS.toBoolean (Reporter.incrementErrorsNo err) = true ->
   Reporter.shouldIncrementTotalCount r err = JS.VBool false).
Proof.
  rewrite shouldIncrementTotalCount_cases.
  destruct (JS.toBoolean (Reporter.incrementErrorsNo err)) eqn:Hno;
    destruct (Spec.scheduled_for_retry r) eqn:Hretry; simpl;
    try (split; [split; [discriminate | intros (_ & H1 & H2); discriminate]
                | split; [now destruct (_ || _) | reflexivity]]).
  rewrite initial_count_true, toBoolean_or, !andb_true_r. simpl.
  repeat split; try tauto; discriminate.
Qed.

Lemma shouldIncrementTotalCount_spec_witness :
  Reporter.shouldIncrementTotalCount Scenario.not_retried Scenario.plain_error
  = JS.VBool true /\
  Reporter.shouldIncrementTotalCount Scenario.not_retried
                                     Scenario.deferred_error
  = JS.VBool false.
Proof.
  split.
  - apply (proj1 (shouldIncrementTotalCount_spec Scenario.not_retried
                                                 Scenario.plain_error)).
    repeat split. right. reflexivity.
  - apply (proj2 (proj2 (shouldIncrementTotalCount_spec
                           Scenario.not_retried Scenario.deferred_error))).
    reflexivity.
Defined.

(** C9: the registry is asked only when there is a current test case and a
    registry was given; when either is missing, an error with
    [incrementErrorCount] and [incrementErrorsNo] both unset is counted,
    whatever a registry would answer for the name. *)
Theorem shouldIncrementTotalCount_without_test_or_registry
        (r : Reporter.t) (err : Reporter.Err) :
  Reporter.currentTestCase (Reporter.testResults r) = None \/
  Reporter.suiteRetries r = None ->
  Reporter.incrementErrorCount err = JS.VUndefined ->
  Reporter.incrementErrorsNo err = JS.VUndefined ->
  Reporter.shouldIncrementTotalCount r err = JS.VBool true.
Proof.
  intros Hmissing Hcount Hno.
  unfold Reporter.shouldIncrementTotalCount, Reporter.shouldRetryTestcase,
    Reporter.currentTest.
  rewrite Hcount, Hno.
  destruct Hmissing as [-> | Hreg]; [reflexivity |].
  rewrite Hreg.
  destruct (Reporter.currentTestCase (Reporter.testResults r)); reflexivity.
Qed.

Lemma shouldIncrementTotalCount_without_test_or_registry_witness :
  Reporter.shouldRetryTest Scenario.retry_all "demo" = true /\
  Reporter.shouldIncrementTotalCount Scenario.no_test_case
                                     Scenario.plain_error
  = JS.VBool true.
Proof.
  split; [reflexivity |].
  apply (shouldIncrementTotalCount_without_test_or_registry
           Scenario.no_test_case Scenario.plain_error).
  - left. reflexivity.
  - reflexivity.
  - reflexivity.
Defined.

(** ** Registering a failure *)

Section LedgerFacts.

Import Reporter.

Lemma registerFailed_ledger (err : Err) (r : t) :
  Spec.ledger (registerFailed err r)
  = let tr := Spec.ledger r in
    mkTestResult (passed tr)
      (if JS.toBoolean (shouldIncrementTotalCount r err)
       then failed tr + 1 else failed tr)%Z
      (errors tr) (skipped tr) (tests tr) (assertions tr) (screenshots tr)
      (Some err).
Proof.
  unfold registerFailed.
  rewrite shouldIncrementTotalCount_setLastError.
  reflexivity.
Qed.

Lemma logAssertResult_ledger (result : AssertResult) (r : t) :
  Spec.ledger (logAssertResult result r)
  = let tr := Spec.ledger r in
    mkTestResult (passed tr) (failed tr) (errors tr) (skipped tr) (tests tr)
      (JS.push (assertions tr) result) (screenshots tr) (lastError tr).
Proof. reflexivity. Qed.

End LedgerFacts.

(** C6, as the code has it: when the counting rule says no,
    [registerFailed] replaces the last error and leaves every count and the
    assertion log as they were; the entry of the audit log comes from
    [logAssertResult], a call of its own, which appends exactly one entry and
    changes no count. *)
Theorem registerFailed_suppressed
        (r : Reporter.t) (err : Reporter.Err)
        (result : Reporter.AssertResult) :
  JS.toBoolean (Reporter.shouldIncrementTotalCount r err) = false ->
  let before := Spec.ledger r in
  let after := Spec.ledger (Reporter.registerFailed err r) in
  let logged :=
    Spec.ledger (Reporter.logAssertResult result
                                          (Reporter.registerFailed err r)) in
  Reporter.failed after = Reporter.failed before /\
  Reporter.passed after = Reporter.passed before /\
  Reporter.errors after = Reporter.errors before /\
  Reporter.skipped after = Reporter.skipped before /\
  Reporter.assertions after = Reporter.assertions before /\
  Reporter.lastError after = Some err /\
  Reporter.assertions logged = JS.push (Reporter.assertions before) result /\
  List.length (Reporter.assertions logged)
  = S (List.length (Reporter.assertions before)) /\
  Reporter.failed logged = Reporter.failed before.
Proof.
  intros Hno before after logged.
  subst before after logged.
  rewrite logAssertResult_ledger, registerFailed_ledger, Hno. simpl.
  repeat split.
  unfold JS.push. rewrite length_app. simpl. lia.
Qed.

Lemma registerFailed_suppressed_witness :
  Reporter.failed
    (Spec.ledger (Reporter.registerFailed Scenario.plain_error
                                          Scenario.retried)) = 0%Z /\
  Reporter.assertions
    (Spec.ledger
       (Reporter.logAssertResult
          Scenario.an_assertion
          (Reporter.registerFailed Scenario.plain_error Scenario.retried)))
  = [Scenario.an_assertion].
Proof.
  pose proof (registerFailed_suppressed
                Scenario.retried Scenario.plain_error Scenario.an_assertion
                eq_refl) as H.
  split; [exact (proj1 H) |].
  exact (proj1 (proj2 (proj2 (proj2 (proj2 (proj2 (proj2 H))))))).
Defined.

(** C6 as it is written fails: with the test scheduled for retry,
    [registerFailed] leaves the failed count alone, and the assertion log
    does not grow by one either. *)
Lemma registerFailed_does_not_log :
  Spec.scheduled_for_retry Scenario.retried = true /\
  JS.toBoolean (Reporter.shouldIncrementTotalCount
                  Scenario.retried Scenario.plain_error) = false /\
  Reporter.failed
    (Spec.ledger (Reporter.registerFailed Scenario.plain_error
                                          Scenario.retried))
  = Reporter.failed (Spec.ledger Scenario.retried) /\
  List.length
    (Reporter.assertions
       (Spec.ledger (Reporter.registerFailed Scenario.plain_error
                                             Scenario.retried)))
  = List.length (Reporter.assertions (Spec.ledger Scenario.retried)) /\
  List.length
    (Reporter.assertions
       (Spec.ledger (Reporter.registerFailed Scenario.plain_error
                                             Scenario.retried)))
  <> S (List.length (Reporter.assertions (Spec.ledger Scenario.retried))).
Proof. repeat split. discriminate. Qed.

(** ** The failure summary *)

Section ReplaceFacts.

Import Reporter.

Lemma no_comma_separator (s t : string) : no_comma (s ++ ", " ++ t) = false.
Proof.
  induction s as [| c s IH]; simpl in *; [reflexivity |].
  rewrite IH. apply andb_false_r.
Qed.

(** On a joined list the replacement acts on the last separator: the comma
    goes, the blank that followed it stays behind the added [" and "]. *)
Lemma replace_final_comma_last (s t : string) :
  no_comma t = true ->
  replace_final_comma (s ++ ", " ++ t) = s ++ " and  " ++ t.
Proof.
  intros Ht. pose proof (no_comma_separator) as Hsep.
  induction s as [| c s IH]; simpl in *.
  - now rewrite Ht.
  - now rewrite Hsep, andb_false_r, IH.
Qed.

End ReplaceFacts.

(** C7, evaluated: with two failed, one error, none passed and one skipped
    the summary is ["2 assertions failed, 1 errors and  1 skipped"]. The
    replacement puts [" and "] in front of what followed the last comma,
    which starts with the blank of the separator, so two blanks stand
    between [and] and the last phrase: the summary ends in
    ["and  1 skipped"], not in ["and 1 skipped"]. *)
Theorem getFailureMessage_scenario_D :
  Reporter.failureMsg Reporter.plain Scenario.result_D
  = ["2 assertions failed"; "1 errors"; "1 skipped"] /\
  Reporter.getFailureMessage Reporter.plain Scenario.reporter_D
  = "2 assertions failed, 1 errors and  1 skipped" /\
  Spec.endsWith
    (Reporter.getFailureMessage Reporter.plain Scenario.reporter_D)
    "and 1 skipped" = false /\
  Spec.endsWith
    (Reporter.getFailureMessage Reporter.plain Scenario.reporter_D)
    "and  1 skipped" = true.
Proof. repeat split. Qed.

Section SummaryFacts.

Import Reporter.

(** The decimal digits of a positive number do not start with a zero. *)
Lemma to_uint_leading_digit (p : positive) (d : Decimal.uint) :
  Pos.to_uint p <> Decimal.D0 d.
Proof.
  intros E.
  assert (N : Pos.to_uint p = Decimal.unorm (Pos.to_uint p)).
  { rewrite <- DecimalPos.Unsigned.to_of, DecimalPos.Unsigned.of_to.
    reflexivity. }
  rewrite E, DecimalFacts.unorm_D0 in N.
  destruct (Decimal.nzhead d) eqn:Hd;
    [ unfold Decimal.unorm in N; rewrite Hd in N;
      apply (DecimalPos.Unsigned.to_uint_nonzero p); now rewrite E, N
    | rewrite DecimalFacts.unorm_nzhead in N by (rewrite Hd; discriminate);
      symmetry in N; now apply DecimalFacts.nzhead_nonzero in N .. ].
Qed.

Lemma numberToString_positive (n : Z) (label : string) :
  (0 < n)%Z ->
  Spec.starts_with_nonzero_digit (JS.numberToString n ++ label) = true.
Proof.
  intros Hn. destruct n as [| p | p]; try lia.
  unfold JS.numberToString. simpl.
  destruct (Pos.to_uint p) eqn:E; try reflexivity.
  - now apply DecimalPos.Unsigned.to_uint_nonnil in E.
  - now apply to_uint_leading_digit in E.
Qed.

Lemma failureMsg_counted (c : Colors) (tr : TestResult) :
  failureMsg c tr = Spec.counted_phrases c tr.
Proof.
  unfold failureMsg, Spec.counted_phrases, Spec.categories. simpl.
  destruct (0 <? failed tr)%Z, (0 <? errors tr)%Z, (0 <? passed tr)%Z,
    (0 <? skipped tr)%Z; reflexivity.
Qed.

Lemma counted_phrases_plain (tr : TestResult) :
  forallb Spec.starts_with_nonzero_digit (Spec.counted_phrases plain tr)
  = true.
Proof.
  unfold Spec.counted_phrases, Spec.categories. simpl.
  destruct (0 <? failed tr)%Z eqn:Hf, (0 <? errors tr)%Z eqn:He,
    (0 <? passed tr)%Z eqn:Hp, (0 <? skipped tr)%Z eqn:Hs;
    cbn [map forallb Spec.phrase plain red green blue];
    repeat match goal with
           | H : (0 <? _)%Z = true |- _ => apply Z.ltb_lt in H
           end;
    rewrite ?numberToString_positive by assumption; reflexivity.
Qed.

Lemma not_a_segment (seg : string) (segs : list string) :
  forallb Spec.starts_with_nonzero_digit segs = true ->
  Spec.starts_with_nonzero_digit seg = false ->
  ~ In seg segs.
Proof.
  intros Hall Hseg Hin.
  rewrite forallb_forall in Hall. apply Hall in Hin. congruence.
Qed.

End SummaryFacts.

(** C10: whatever the counts, the phrases of the summary are those of the
    categories with a count above zero, in order, and the summary is built
    from them alone; printed without colours every phrase starts with a
    digit other than zero, so none of ["0 assertions failed"], ["0 errors"],
    ["0 passed"], ["0 skipped"] is among them. *)
Theorem getFailureMessage_omits_zero_counts
        (c : Reporter.Colors) (r : Reporter.t) :
  let tr := Spec.ledger r in
  Reporter.failureMsg c tr = Spec.counted_phrases c tr /\
  Reporter.getFailureMessage c r
  = Reporter.replace_final_comma
      (JS.join ", " (Spec.counted_phrases c tr)) /\
  forallb Spec.starts_with_nonzero_digit
          (Reporter.failureMsg Reporter.plain tr) = true /\
  ~ In "0 assertions failed" (Reporter.failureMsg Reporter.plain tr) /\
  ~ In "0 errors" (Reporter.failureMsg Reporter.plain tr) /\
  ~ In "0 passed" (Reporter.failureMsg Reporter.plain tr) /\
  ~ In "0 skipped" (Reporter.failureMsg Reporter.plain tr).
Proof.
  intros tr.
  assert (Hall : forallb Spec.starts_with_nonzero_digit
                         (Reporter.failureMsg Reporter.plain tr) = true).
  { rewrite failureMsg_counted. apply counted_phrases_plain. }
  split; [apply failureMsg_counted |].
  split; [unfold Reporter.getFailureMessage; fold (Spec.ledger r);
          fold tr; now rewrite failureMsg_counted |].
  split; [exact Hall |].
  repeat split; apply not_a_segment; (exact Hall || reflexivity).
Qed.

(** ** The failure screenshot *)

Section ScreenshotFacts.

Import Reporter.

Lemma shouldTakeFailureScreenshot_true (r : t) :
  shouldTakeFailureScreenshot r = true <->
  unitTestsMode r = false /\
  exists sc, screenshots_settings (settings r) = Some sc /\
             enabled sc = true /\ on_failure sc = true.
Proof.
  unfold shouldTakeFailureScreenshot.
  destruct (unitTestsMode r); simpl.
  - split; [discriminate | intros [H _]; discriminate].
  - destruct (screenshots_settings (settings r)) as [sc |].
    + rewrite andb_true_iff. split.
      * intros [He Hf]. split; [reflexivity |]. now exists sc.
      * intros [_ (sc' & Hsc & He & Hf)]. injection Hsc as <-. now split.
    + split; [discriminate | intros [_ (sc' & Hsc & _)]; discriminate].
Qed.

End ScreenshotFacts.

(** C8, as the code has it. With screenshots enabled and wanted on failure,
    no unit-test mode and a current test, [saveFailureScreenshot] builds the
    file name from [{module}/{testName}-test-{tests}], writes it to the
    screenshot log of the ledger at once, and then hands the request to the
    screenshot service; the promise is pending until the service calls
    back, and that completion settles the promise and leaves the ledger as
    it is. With the gate closed there is no write, no request, and the
    promise is fulfilled. *)
Theorem saveFailureScreenshot_spec
        (getFileName : string -> bool -> string -> string)
        (isError : bool) (r : Reporter.t) :
  let o := Reporter.saveFailureScreenshot getFileName isError r in
  (Reporter.shouldTakeFailureScreenshot r = false ->
   Reporter.reporter_after o = r /\
   Reporter.trace o = [] /\
   Reporter.promise o = Reporter.Fulfilled) /\
  (forall (ct : Reporter.CurrentTest) (sc : Reporter.ScreenshotSettings),
      Reporter.unitTestsMode r = false ->
      Reporter.screenshots_settings (Reporter.settings r) = Some sc ->
      Reporter.enabled sc = true ->
      Reporter.on_failure sc = true ->
      Reporter.currentTest r = Some ct ->
      let fileName :=
        getFileName
          (Reporter.module ct ++ "/" ++ Reporter.name ct ++ "-test-"
             ++ JS.numberToString (Reporter.tests (Reporter.results ct)))
          isError (Reporter.path sc) in
      Reporter.trace o
      = [Reporter.ScreenshotFileLogged fileName;
         Reporter.SaveScreenshotRequested fileName] /\
      Reporter.promise o = Reporter.Pending /\
      Reporter.screenshots (Spec.ledger (Reporter.reporter_after o))
      = JS.push (Reporter.screenshots (Spec.ledger r)) fileName /\
      Reporter.assertions (Spec.ledger (Reporter.reporter_after o))
      = Reporter.assertions (Spec.ledger r) /\
      Reporter.failed (Spec.ledger (Reporter.reporter_after o))
      = Reporter.failed (Spec.ledger r) /\
      Reporter.reporter_after (Reporter.serviceCompleted o)
      = Reporter.reporter_after o /\
      Reporter.promise (Reporter.serviceCompleted o) = Reporter.Fulfilled).
Proof.
  intros o. split.
  - intros Hgate. subst o. unfold Reporter.saveFailureScreenshot.
    rewrite Hgate. repeat split.
  - intros ct sc Hmode Hsc Hen Hfail Hct fileName.
    assert (Hgate : Reporter.shouldTakeFailureScreenshot r = true).
    { apply shouldTakeFailureScreenshot_true. split; [exact Hmode |].
      now exists sc. }
    subst o fileName. unfold Reporter.saveFailureScreenshot.
    rewrite Hgate, Hct, Hsc. repeat split.
Qed.

Lemma saveFailureScreenshot_spec_witness :
  (let o := Reporter.saveFailureScreenshot Scenario.fileName_of false
                                           Scenario.not_retried in
   Reporter.trace o
   = [Reporter.ScreenshotFileLogged "screens/login/demo-test-1_FAILED.png";
      Reporter.SaveScreenshotRequested
        "screens/login/demo-test-1_FAILED.png"] /\
   Reporter.promise o = Reporter.Pending) /\
  (let o := Reporter.saveFailureScreenshot Scenario.fileName_of false
                                           Scenario.screenshots_off in
   Reporter.reporter_after o = Scenario.screenshots_off /\
   Reporter.trace o = []).
Proof.
  split.
  - pose proof (proj2 (saveFailureScreenshot_spec
                         Scenario.fileName_of false Scenario.not_retried)
                      (Reporter.mkCurrentTest "demo" "login" "smoke"
                                              Scenario.fresh_result)
                      (Reporter.mkScreenshotSettings true false true
                                                     "screens")
                      eq_refl eq_refl eq_refl eq_refl eq_refl) as H.
    split; [exact (proj1 H) | exact (proj1 (proj2 H))].
  - pose proof (proj1 (saveFailureScreenshot_spec
                         Scenario.fileName_of false
                         Scenario.screenshots_off) eq_refl) as H.
    split; [exact (proj1 H) | exact (proj1 (proj2 H))].
Defined.

(** C8 as it is written fails: the file is in the ledger before the request
    is made, while the promise is still pending; the completion of the
    request adds nothing. And with the gate open but no current test the
    call is rejected, without a file name, a write or a request. *)
Lemma saveFailureScreenshot_logs_before_completion :
  (let o := Reporter.saveFailureScreenshot Scenario.fileName_of false
                                           Scenario.not_retried in
   Reporter.shouldTakeFailureScreenshot Scenario.not_retried = true /\
   Reporter.screenshots (Spec.ledger Scenario.not_retried) = [] /\
   Reporter.promise o = Reporter.Pending /\
   Reporter.screenshots (Spec.ledger (Reporter.reporter_after o))
   = ["screens/login/demo-test-1_FAILED.png"] /\
   Reporter.trace o
   = [Reporter.ScreenshotFileLogged "screens/login/demo-test-1_FAILED.png";
      Reporter.SaveScreenshotRequested
        "screens/login/demo-test-1_FAILED.png"] /\
   Reporter.screenshots
     (Spec.ledger (Reporter.reporter_after (Reporter.serviceCompleted o)))
   = Reporter.screenshots (Spec.ledger (Reporter.reporter_after o))) /\
  (let o := Reporter.saveFailureScreenshot Scenario.fileName_of false
                                           Scenario.no_test_case in
   Reporter.shouldTakeFailureScreenshot Scenario.no_test_case = true /\
   Reporter.promise o = Reporter.Rejected /\
   Reporter.trace o = []).
Proof. repeat split. Qed.

(** ** Further properties of the text expectation *)

(** X1: whatever the assertion, [elementFound] keeps the verdict, the
    negation, the retry count, the budget and the message, and its message
    parts only grow at the end, by one part at most. *)
Theorem elementFound_frame
        (hasCondition : TextAssertion.t -> bool)
        (getElapsedTime : TextAssertion.t -> Z) (a : TextAssertion.t) :
  let a' := TextAssertion.elementFound hasCondition getElapsedTime a in
  TextAssertion.passed a' = TextAssertion.passed a /\
  TextAssertion.negate a' = TextAssertion.negate a /\
  TextAssertion.retries a' = TextAssertion.retries a /\
  TextAssertion.waitForMs a' = TextAssertion.waitForMs a /\
  TextAssertion.message a' = TextAssertion.message a /\
  exists extra : list string,
    TextAssertion.messageParts a'
    = (TextAssertion.messageParts a ++ extra)%list /\
    (List.length extra <= 1)%nat.
Proof.
  intros a'. subst a'. unfold TextAssertion.elementFound.
  destruct ((0 <? TextAssertion.retries a)%Z && TextAssertion.negate a);
    [| destruct (TextAssertion.passed a
                 && JS.toBoolean (TextAssertion.waitForMs a))];
    repeat split;
    first [ exists []; split; [now rewrite app_nil_r | simpl; lia]
          | eexists [_]; split; [reflexivity | simpl; lia] ].
Qed.

(** X2: [elementFound] changes the assertion exactly when it passed, its
    budget is truthy (a number other than zero) and it is not a negated
    assertion with retries behind it; without a budget nothing is ever
    annotated. *)
Theorem elementFound_changes_iff
        (hasCondition : TextAssertion.t -> bool)
        (getElapsedTime : TextAssertion.t -> Z) (a : TextAssertion.t) :
  TextAssertion.elementFound hasCondition getElapsedTime a <> a <->
  TextAssertion.passed a = true /\
  JS.toBoolean (TextAssertion.waitForMs a) = true /\
  (0 <? TextAssertion.retries a)%Z && TextAssertion.negate a = false.
Proof.
  unfold TextAssertion.elementFound.
  destruct ((0 <? TextAssertion.retries a)%Z && TextAssertion.negate a).
  - split; [intros H; now contradiction H | intros (_ & _ & H); discriminate].
  - destruct (TextAssertion.passed a) eqn:Hp; simpl.
    + destruct (JS.toBoolean (TextAssertion.waitForMs a)) eqn:Hw.
      * split; [now intros _ |]. intros _ E.
        apply (f_equal TextAssertion.messageParts) in E. simpl in E.
        apply (f_equal (@List.length string)) in E.
        unfold JS.push in E. rewrite length_app in E. simpl in E. lia.
      * split; [intros H; now contradiction H
               | intros (_ & H & _); discriminate].
    + split; [intros H; now contradiction H | intros (H & _); discriminate].
Qed.

(** ** Further properties of the counting rule *)

Section CountingRuns.

Import Reporter.

Lemma shouldIncrementTotalCount_registerFailed (e err : Err) (r : t) :
  shouldIncrementTotalCount (registerFailed e r) err
  = shouldIncrementTotalCount r err.
Proof.
  unfold shouldIncrementTotalCount, shouldRetryTestcase, currentTest.
  simpl. destruct (currentTestCase (testResults r)); reflexivity.
Qed.

Lemma registerFailedAll_snoc (errs : list Err) (e : Err) (r : t) :
  Report.registerFailedAll (errs ++ [e]) r
  = registerFailed e (Report.registerFailedAll errs r).
Proof. unfold Report.registerFailedAll. now rewrite fold_left_app. Qed.

Lemma shouldIncrementTotalCount_registerFailedAll
      (errs : list Err) (err : Err) (r : t) :
  shouldIncrementTotalCount (Report.registerFailedAll errs r) err
  = shouldIncrementTotalCount r err.
Proof.
  induction errs as [| e errs IH] using rev_ind; [reflexivity |].
  now rewrite registerFailedAll_snoc, shouldIncrementTotalCount_registerFailed.
Qed.

End CountingRuns.


(** X4: a run of [registerFailed] over a list of errors, with the ledger
    operations as the specification describes them: the failed count grows
    by the number of errors the counting rule accepts, the decision for each
    error being the one taken before the run; the other counts and both logs
    stay as they were, and the last error is the last one registered. *)
Theorem registerFailedAll_counts (errs : list Reporter.Err) (r : Reporter.t) :
  let before := Spec.ledger r in
  let after := Spec.ledger (Report.registerFailedAll errs r) in
  Reporter.failed after
  = (Reporter.failed before
     + Z.of_nat
         (List.length
            (filter (fun err =>
                       JS.toBoolean (Reporter.shouldIncrementTotalCount r err))
                    errs)))%Z /\
  Reporter.passed after = Reporter.passed before /\
  Reporter.errors after = Reporter.errors before /\
  Reporter.skipped after = Reporter.skipped before /\
  Reporter.assertions after = Reporter.assertions before /\
  Reporter.screenshots after = Reporter.screenshots before /\
  Reporter.lastError after
  = match rev errs with
    | [] => Reporter.lastError before
    | err :: _ => Some err
    end.
Proof.
  induction errs as [| e errs IH] using rev_ind.
  - simpl. repeat split. lia.
  - destruct IH as (Hf & Hp & He & Hs & Ha & Hsc & _).
    simpl. rewrite registerFailedAll_snoc, registerFailed_ledger.
    rewrite shouldIncrementTotalCount_registerFailedAll.
    rewrite filter_app, length_app, rev_app_distr. simpl.
    repeat split; try assumption.
    rewrite Hf.
    destruct (JS.toBoolean (Reporter.shouldIncrementTotalCount r e));
      simpl; lia.
Qed.

(** ** Further properties of the failure summary *)

Section SummaryShape.

Import Reporter.


Lemma no_comma_app (s t : string) :
  no_comma (s ++ t) = no_comma s && no_comma t.
Proof.
  induction s as [| c s IH]; simpl; [reflexivity |].
  now rewrite IH, andb_assoc.
Qed.

Lemma replace_final_comma_unchanged (s : string) :
  no_comma s = true -> replace_final_comma s = s.
Proof.
  induction s as [| c s IH]; simpl; [reflexivity |].
  intros H. apply andb_true_iff in H as [Hc Hs].
  apply negb_true_iff in Hc. rewrite Hc. simpl. now rewrite IH.
Qed.

Lemma no_comma_string_of_uint (d : Decimal.uint) :
  no_comma (NilEmpty.string_of_uint d) = true.
Proof. induction d; simpl; auto. Qed.

Lemma no_comma_numberToString (n : Z) : no_comma (JS.numberToString n) = true.
Proof.
  unfold JS.numberToString.
  destruct (Z.to_int n); simpl; apply no_comma_string_of_uint.
Qed.

Lemma plain_comma_free : Report.comma_free plain.
Proof. intros n. simpl. now rewrite no_comma_numberToString. Qed.

Lemma string_app_assoc (s t u : string) : (s ++ t) ++ u = s ++ t ++ u.
Proof. induction s as [| c s IH]; simpl; [reflexivity | now rewrite IH]. Qed.

Lemma string_length_app (s t : string) :
  String.length (s ++ t) = (String.length s + String.length t)%nat.
Proof. induction s as [| c s IH]; simpl; [reflexivity | now rewrite IH]. Qed.

Lemma join_snoc (sep y : string) (pre : list string) :
  pre <> [] ->
  JS.join sep (pre ++ [y]) = JS.join sep pre ++ sep ++ y.
Proof.
  induction pre as [| x pre IH]; [congruence |]. intros _.
  destruct pre as [| x' pre]; [reflexivity |].
  change (JS.join sep ((x :: x' :: pre) ++ [y]))
    with (x ++ sep ++ JS.join sep ((x' :: pre) ++ [y])).
  rewrite IH by discriminate.
  change (JS.join sep (x :: x' :: pre))
    with (x ++ sep ++ JS.join sep (x' :: pre)).
  now rewrite !string_app_assoc.
Qed.

(** The replacement on a joined list of phrases without commas. *)
Lemma replace_join (phrases : list string) :
  Forall (fun p => no_comma p = true) phrases ->
  replace_final_comma (JS.join ", " phrases)
  = match rev phrases with
    | [] => ""
    | [x] => x
    | y :: x :: pre => JS.join ", " (rev (x :: pre)) ++ " and  " ++ y
    end.
Proof.
  intros Hall.
  rewrite <- (rev_involutive phrases) in Hall |- * at 1.
  destruct (rev phrases) as [| y [| x pre]]; [reflexivity | |].
  - simpl in *. apply replace_final_comma_unchanged.
    now inversion Hall.
  - change (rev (y :: x :: pre)) with (rev (x :: pre) ++ [y])%list in *.
    apply Forall_app in Hall as [_ Hy]. inversion Hy as [| ? ? Hy' _]; subst.
    rewrite join_snoc.
    + now apply replace_final_comma_last.
    + simpl. intros E. now apply app_eq_nil in E as [_ E].
Qed.

Lemma counted_phrases_comma_free (c : Colors) (tr : TestResult) :
  Report.comma_free c ->
  Forall (fun p => no_comma p = true) (Spec.counted_phrases c tr).
Proof.
  intros Hc. unfold Spec.counted_phrases, Spec.categories. simpl.
  destruct (Hc (failed tr)) as (Hr1 & _ & _).
  destruct (Hc (errors tr)) as (Hr2 & _ & _).
  destruct (Hc (passed tr)) as (_ & Hg & _).
  destruct (Hc (skipped tr)) as (_ & _ & Hb).
  destruct (0 <? failed tr)%Z, (0 <? errors tr)%Z, (0 <? passed tr)%Z,
    (0 <? skipped tr)%Z; simpl;
    repeat (constructor; [rewrite no_comma_app; simpl;
                          first [now rewrite Hr1 | now rewrite Hr2
                                | now rewrite Hg | now rewrite Hb] |]);
    constructor.
Qed.

Lemma counted_phrases_nil (c : Colors) (tr : TestResult) :
  Spec.counted_phrases c tr = [] <->
  (failed tr <= 0 /\ errors tr <= 0 /\ passed tr <= 0 /\ skipped tr <= 0)%Z.
Proof.
  unfold Spec.counted_phrases, Spec.categories. simpl.
  destruct (Z.ltb_spec 0 (failed tr)), (Z.ltb_spec 0 (errors tr)),
    (Z.ltb_spec 0 (passed tr)), (Z.ltb_spec 0 (skipped tr)); simpl;
    split; intros Hx; try discriminate; try lia; auto.
Qed.

End SummaryShape.



(** X6: with colours that add no comma, the summary is empty when no count
    is above zero, the single phrase when one is, and otherwise the phrases
    but the last joined by [", "], then [" and  "] with its two blanks, then
    the last phrase. *)
Theorem getFailureMessage_closed_form (c : Reporter.Colors) (r : Reporter.t) :
  Report.comma_free c ->
  Reporter.getFailureMessage c r
  = match rev (Spec.counted_phrases c (Spec.ledger r)) with
    | [] => ""
    | [x] => x
    | y :: x :: pre => JS.join ", " (rev (x :: pre)) ++ " and  " ++ y
    end.
Proof.
  intros Hc. unfold Reporter.getFailureMessage. fold (Spec.ledger r).
  rewrite failureMsg_counted.
  apply replace_join. now apply counted_phrases_comma_free.
Qed.

Lemma getFailureMessage_closed_form_witness :
  Reporter.getFailureMessage Reporter.plain Sample.failing
  = "1 assertions failed and  1 passed".
Proof.
  apply (getFailureMessage_closed_form Reporter.plain Sample.failing).
  exact plain_comma_free.
Defined.

(** X7: printed without colours, the summary is the empty string exactly
    when none of the four counts is above zero. *)
Theorem getFailureMessage_empty_iff (r : Reporter.t) :
  Reporter.getFailureMessage Reporter.plain r = "" <->
  (Reporter.failed (Spec.ledger r) <= 0 /\
   Reporter.errors (Spec.ledger r) <= 0 /\
   Reporter.passed (Spec.ledger r) <= 0 /\
   Reporter.skipped (Spec.ledger r) <= 0)%Z.
Proof.
  rewrite <- (counted_phrases_nil Reporter.plain).
  unfold Reporter.getFailureMessage. fold (Spec.ledger r).
  rewrite failureMsg_counted.
  rewrite replace_join
    by (apply counted_phrases_comma_free, plain_comma_free).
  pose proof (counted_phrases_plain (Spec.ledger r)) as Hdigit.
  rewrite <- (rev_involutive (Spec.counted_phrases _ _)) in Hdigit |- * at 2.
  destruct (rev (Spec.counted_phrases Reporter.plain (Spec.ledger r)))
    as [| y [| x pre]].
  - simpl. tauto.
  - simpl in *. rewrite andb_true_r in Hdigit.
    split; [intros ->; discriminate | discriminate].
  - split.
    + intros E. apply (f_equal String.length) in E.
      rewrite !string_length_app in E. simpl in E. lia.
    + intros E. apply (f_equal (@List.length string)) in E.
      simpl in E. rewrite !length_app in E. simpl in E. lia.
Qed.

(** ** Printing *)

Section PrintingFacts.

Import Reporter.

Lemma split_not_nil (sep : ascii) (s : string) : Report.split sep s <> [].
Proof.
  destruct s as [| c s]; simpl; [discriminate |].
  destruct (c =? sep)%char; [discriminate |].
  destruct (Report.split sep s); discriminate.
Qed.

Lemma join_cons (sep x : string) (xs : list string) :
  xs <> [] -> JS.join sep (x :: xs) = x ++ sep ++ JS.join sep xs.
Proof. destruct xs; [congruence | reflexivity]. Qed.

Lemma join_split (sep : ascii) (s : string) :
  JS.join (String sep EmptyString) (Report.split sep s) = s.
Proof.
  induction s as [| c s IH]; [reflexivity |].
  simpl Report.split.
  destruct (Ascii.eqb_spec c sep) as [-> | Hneq].
  - rewrite join_cons by apply split_not_nil. simpl. now rewrite IH.
  - pose proof (split_not_nil sep s) as Hnil.
    destruct (Report.split sep s) as [| x xs]; [congruence |].
    destruct xs as [| x' xs].
    + simpl in *. now rewrite IH.
    + change (JS.join (String sep "") (String c x :: x' :: xs))
        with (String c (x ++ String sep "" ++ JS.join (String sep "")
                          (x' :: xs))).
      change (JS.join (String sep "") (x :: x' :: xs))
        with (x ++ String sep "" ++ JS.join (String sep "") (x' :: xs))
        in IH.
      now rewrite IH.
Qed.

Lemma printSimplifiedTestResult_none k ok elapsedTime isChildProcess r :
  Report.printSimplifiedTestResult k ok elapsedTime isChildProcess r = None
  <-> currentTestCase (testResults r) = None.
Proof.
  unfold Report.printSimplifiedTestResult, currentTest.
  destruct (currentTestCase (testResults r)) as [tc |]; [| tauto].
  split; [| discriminate].
  cbv zeta. simpl results.
  destruct ok; [discriminate |].
  destruct (lastError (currentTestResult (testResults r)));
    [destruct (unitTestsMode r) |]; discriminate.
Qed.

End PrintingFacts.

(** X8: splitting a string at a character and joining the pieces with that
    character gives the string back; so the text [printAssertions] shows for
    an assertion is its full message, a line break, and its stack trace,
    whatever the stack trace holds. *)
Theorem stackTrace_message_round_trip
        (sep : ascii) (s : string) (a : Reporter.AssertResult) :
  JS.join (String sep EmptyString) (Report.split sep s) = s /\
  Report.stackTrace_message a
  = Reporter.fullMsg a ++ Report.newline ++ Reporter.stackTrace a.
Proof.
  split; [apply join_split |].
  unfold Report.stackTrace_message.
  rewrite join_cons by apply split_not_nil.
  unfold Report.newline. now rewrite join_split.
Qed.

(** X9: [printAssertions] shows one stack trace for each assertion whose
    [failure] is not the value [false], in the order of the log, an
    undefined [failure] included; it shows nothing exactly when every
    [failure] is [false]. *)
Theorem printAssertions_filter (testcase : Reporter.TestResult) :
  Report.printAssertions testcase
  = map (fun a => Report.ShowStackTrace (Report.stackTrace_message a))
        (filter (fun a => Report.not_false (Reporter.failure a))
                (Reporter.assertions testcase)) /\
  (Report.printAssertions testcase = [] <->
   Forall (fun a => Reporter.failure a = JS.VBool false)
          (Reporter.assertions testcase)).
Proof.
  unfold Report.printAssertions.
  induction (Reporter.assertions testcase) as [| a rest [IHmap IHnil]].
  - simpl. split; [reflexivity |]. split; [constructor | reflexivity].
  - simpl. rewrite IHmap.
    destruct (Report.not_false (Reporter.failure a)) eqn:Hf; simpl.
    + split; [reflexivity |]. split; [discriminate |].
      intros H. inversion H as [| ? ? Ha _]; subst.
      rewrite Ha in Hf. discriminate.
    + split; [reflexivity |]. rewrite <- IHmap, IHnil.
      assert (Ha : Reporter.failure a = JS.VBool false).
      { destruct (Reporter.failure a) as [| | [] | | |]; try discriminate.
        reflexivity. }
      split; [intros H; now constructor | intros H; now inversion H].
Qed.

(** X10: [printSimplifiedTestResult] throws exactly when no test case is
    current, and then nothing has been printed; for a test that passed it
    prints one console line and nothing else. *)
Theorem printSimplifiedTestResult_passed
        (k : Report.Console) (ok : bool) (elapsedTime : Z)
        (isChildProcess : bool) (r : Reporter.t) :
  (Report.printSimplifiedTestResult k ok elapsedTime isChildProcess r = None
   <-> Reporter.currentTestCase (Reporter.testResults r) = None) /\
  (Reporter.currentTestCase (Reporter.testResults r) <> None ->
   exists line : string,
     Report.printSimplifiedTestResult k true elapsedTime isChildProcess r
     = Some [Report.ConsoleLog line]).
Proof.
  split; [apply printSimplifiedTestResult_none |].
  intros Htc. unfold Report.printSimplifiedTestResult, Reporter.currentTest.
  destruct (Reporter.currentTestCase (Reporter.testResults r)) as [tc |];
    [| congruence].
  eexists. reflexivity.
Qed.

(** X11: for a test that did not pass, the console line is followed by the
    last error alone when the run is in unit-test mode and a last error is
    recorded, and otherwise by the stack traces of [printAssertions]: one
    for each assertion whose [failure] is not [false]. *)
Theorem printSimplifiedTestResult_failed
        (k : Report.Console) (elapsedTime : Z) (isChildProcess : bool)
        (r : Reporter.t) (tc : Reporter.TestCase) :
  Reporter.currentTestCase (Reporter.testResults r) = Some tc ->
  exists line : string,
    Report.printSimplifiedTestResult k false elapsedTime isChildProcess r
    = Some (Report.ConsoleLog line ::
            match Reporter.lastError (Spec.ledger r) with
            | Some err =>
                if Reporter.unitTestsMode r then [Report.LoggerError err]
                else Report.printAssertions (Spec.ledger r)
            | None => Report.printAssertions (Spec.ledger r)
            end) /\
    List.length (Report.printAssertions (Spec.ledger r))
    = List.length
        (filter (fun a => Report.not_false (Reporter.failure a))
                (Reporter.assertions (Spec.ledger r))).
Proof.
  intros Htc.
  assert (Hlen : List.length (Report.printAssertions (Spec.ledger r))
                 = List.length
                     (filter (fun a => Report.not_false (Reporter.failure a))
                             (Reporter.assertions (Spec.ledger r)))).
  { unfold Report.printAssertions.
    induction (Reporter.assertions (Spec.ledger r)) as [| a rest IH];
      [reflexivity |].
    simpl. rewrite length_app, IH.
    destruct (Report.not_false (Reporter.failure a)); reflexivity. }
  unfold Report.printSimplifiedTestResult, Reporter.currentTest.
  rewrite Htc. simpl. fold (Spec.ledger r).
  destruct (Reporter.lastError (Spec.ledger r));
    [destruct (Reporter.unitTestsMode r) |];
    eexists; (split; [reflexivity | exact Hlen]).
Qed.

Lemma printSimplifiedTestResult_failed_witness :
  exists line : string,
    Report.printSimplifiedTestResult Sample.console false 25 false
                                     Sample.failing_unit
    = Some [Report.ConsoleLog line; Report.LoggerError Scenario.plain_error].
Proof.
  destruct (printSimplifiedTestResult_failed
              Sample.console 25 false Sample.failing_unit
              (Reporter.mkTestCase "demo") eq_refl) as (line & H & _).
  exists line. exact H.
Defined.


(** X13: on the detailed route (no child process, detailed output, no
    unit-test mode) [printTestResult] logs at most one message; none exactly
    when the test passed without a single assertion and no session was to be
    started; and the failure line, with the summary of [getFailureMessage],
    whenever the test did not pass or its passed count is below zero. *)
Theorem printTestResult_detailed
        (c : Reporter.Colors) (k : Report.Console)
        (currentTestCasePassed : bool) (currentTestElapsedTime : Z)
        (r : Reporter.t) :
  Reporter.detailed_output (Reporter.settings r) = true ->
  Reporter.unitTestsMode r = false ->
  exists out : list Report.Output,
    Report.printTestResult c k currentTestCasePassed currentTestElapsedTime
                           false r = Some out /\
    (List.length out <= 1)%nat /\
    (out = [] <->
     currentTestCasePassed = true /\
     Reporter.passed (Spec.ledger r) = 0%Z /\
     Reporter.start_session (Reporter.settings r) = false) /\
    (currentTestCasePassed = false \/ (Reporter.passed (Spec.ledger r) < 0)%Z ->
     out = [Report.LogDetailedMessage
              (Report.newline ++ Report.paint k Report.Red "FAILED:" ++ " "
                 ++ Reporter.getFailureMessage c r ++ " ("
                 ++ Report.formatElapsedTime k currentTestElapsedTime ++ ")")
              false]).
Proof.
  intros Hdetailed Hunit. unfold Report.printTestResult.
  rewrite Hdetailed, Hunit. simpl. fold (Spec.ledger r).
  destruct currentTestCasePassed; simpl.
  - destruct (Z.ltb_spec 0 (Reporter.passed (Spec.ledger r))) as [Hpos | Hle].
    + eexists. split; [reflexivity |]. split; [simpl; lia |].
      split; [split; [discriminate | intros (_ & H & _); lia] |].
      intros [H | H]; [discriminate | lia].
    + destruct (Z.eqb_spec (Reporter.passed (Spec.ledger r)) 0) as [Hz | Hnz].
      * destruct (Reporter.start_session (Reporter.settings r)).
        -- eexists. split; [reflexivity |]. split; [simpl; lia |].
           split; [split; [discriminate | intros (_ & _ & H); discriminate]
                  |].
           intros [H | H]; [discriminate | lia].
        -- exists []. split; [reflexivity |]. split; [simpl; lia |].
           split; [tauto |].
           intros [H | H]; [discriminate | lia].
      * eexists. split; [reflexivity |]. split; [simpl; lia |].
        split; [split; [discriminate | intros (_ & H & _); lia] |].
        reflexivity.
  - eexists. split; [reflexivity |]. split; [simpl; lia |].
    split; [split; [discriminate | intros (H & _); discriminate] |].
    reflexivity.
Qed.

Lemma printTestResult_detailed_witness :
  exists out : list Report.Output,
    Report.printTestResult Reporter.plain Sample.console false 25 false
                           Sample.failing = Some out /\
    (List.length out <= 1)%nat.
Proof.
  destruct (printTestResult_detailed Reporter.plain Sample.console false 25
                                     Sample.failing eq_refl eq_refl)
    as (out & H & Hlen & _).
  exists out. split; [exact H | exact Hlen].
Defined.

(** ** Further properties of the screenshots *)

(** X14: with the gate open and no current test case
    [saveFailureScreenshot] is rejected: reading [module] off the missing
    test throws before a file name is built, so nothing is logged and
    nothing is asked of the service. *)
Theorem saveFailureScreenshot_rejected
        (getFileName : string -> bool -> string -> string)
        (isError : bool) (r : Reporter.t) :
  Reporter.shouldTakeFailureScreenshot r = true ->
  Reporter.currentTestCase (Reporter.testResults r) = None ->
  Reporter.saveFailureScreenshot getFileName isError r
  = Reporter.mkOutcome r [] Reporter.Rejected.
Proof.
  intros Hgate Htc.
  unfold Reporter.saveFailureScreenshot, Reporter.currentTest.
  now rewrite Hgate, Htc.
Qed.

Lemma saveFailureScreenshot_rejected_witness :
  Reporter.saveFailureScreenshot Scenario.fileName_of true
                                 Scenario.no_test_case
  = Reporter.mkOutcome Scenario.no_test_case [] Reporter.Rejected.
Proof.
  apply (saveFailureScreenshot_rejected Scenario.fileName_of true
                                        Scenario.no_test_case);
    reflexivity.
Defined.

(** X15: the context of the running test decides on unit-test mode, not the
    settings: inside a context in unit-test mode [saveFailureScreenshot]
    does nothing at all, whatever the screenshot settings and the setting
    [unit_tests_mode] say. *)
Theorem saveFailureScreenshot_unit_context
        (getFileName : string -> bool -> string -> string)
        (isError : bool) (r : Reporter.t) (ctx : Reporter.Context) :
  Reporter.currentContext r = Some ctx ->
  Reporter.ctx_unitTestsMode ctx = true ->
  Reporter.saveFailureScreenshot getFileName isError r
  = Reporter.mkOutcome r [] Reporter.Fulfilled.
Proof.
  intros Hctx Hunit.
  unfold Reporter.saveFailureScreenshot, Reporter.shouldTakeFailureScreenshot,
    Reporter.unitTestsMode.
  now rewrite Hctx, Hunit.
Qed.

Lemma saveFailureScreenshot_unit_context_witness :
  Reporter.unit_tests_mode (Reporter.settings Sample.failing_unit) = false /\
  Reporter.saveFailureScreenshot Scenario.fileName_of false
                                 Sample.failing_unit
  = Reporter.mkOutcome Sample.failing_unit [] Reporter.Fulfilled.
Proof.
  split; [reflexivity |].
  apply (saveFailureScreenshot_unit_context
           Scenario.fileName_of false Sample.failing_unit
           (Reporter.mkContext true)); reflexivity.
Defined.

(** X16: [saveErrorScreenshot] looks at [on_error] and at the content only:
    with both truthy and a current test it writes the file, named from
    [{module}/{testName}] with the error flag set, and logs the name after
    the write, also when screenshots are not enabled and in unit-test
    mode. *)
Theorem saveErrorScreenshot_taken
        (getFileName : string -> bool -> string -> string)
        (result content : JS.value) (r : Reporter.t)
        (sc : Reporter.ScreenshotSettings) (ct : Reporter.CurrentTest) :
  Reporter.screenshots_settings (Reporter.settings r) = Some sc ->
  Reporter.on_error sc = true ->
  JS.toBoolean content = true ->
  Reporter.currentTest r = Some ct ->
  let fileName :=
    getFileName (Reporter.module ct ++ "/" ++ Reporter.name ct) true
                (Reporter.path sc) in
  exists r' : Reporter.t,
    Report.saveErrorScreenshot getFileName result content r
    = Some (r', [Report.WriteScreenshotToFile fileName content;
                 Report.LogScreenshotFile fileName]) /\
    Reporter.screenshots (Spec.ledger r')
    = JS.push (Reporter.screenshots (Spec.ledger r)) fileName /\
    Reporter.assertions (Spec.ledger r')
    = Reporter.assertions (Spec.ledger r) /\
    Reporter.settings r' = Reporter.settings r.
Proof.
  intros Hsc Hon Hcontent Hct fileName.
  unfold Report.saveErrorScreenshot.
  rewrite Hsc, Hon, Hcontent, Hct. simpl.
  eexists. split; [reflexivity |]. repeat split.
Qed.

Lemma saveErrorScreenshot_taken_witness :
  Reporter.shouldTakeFailureScreenshot Sample.error_only = false /\
  exists r' : Reporter.t,
    Report.saveErrorScreenshot Scenario.fileName_of JS.VUndefined
                               (JS.VStr "iVBORw0KGgo=") Sample.error_only
    = Some (r',
            [Report.WriteScreenshotToFile "screens/login/demo_ERROR.png"
                                          (JS.VStr "iVBORw0KGgo=");
             Report.LogScreenshotFile "screens/login/demo_ERROR.png"]).
Proof.
  split; [reflexivity |].
  destruct (saveErrorScreenshot_taken
              Scenario.fileName_of JS.VUndefined (JS.VStr "iVBORw0KGgo=")
              Sample.error_only
              (Reporter.mkScreenshotSettings false true false "screens")
              (Reporter.mkCurrentTest "demo" "login" "smoke"
                                      Scenario.fresh_result)
              eq_refl eq_refl eq_refl eq_refl) as (r' & H & _).
  exists r'. exact H.
Defined.

(** X17: [saveErrorScreenshot] throws exactly when the settings hold no
    screenshot section, or when a screenshot is due ([on_error] and a truthy
    content) and no test case is current; with [on_error] off or a falsy
    content it returns without a write and without a log entry. *)
Theorem saveErrorScreenshot_throws_iff
        (getFileName : string -> bool -> string -> string)
        (result content : JS.value) (r : Reporter.t) :
  (Report.saveErrorScreenshot getFileName result content r = None <->
   Reporter.screenshots_settings (Reporter.settings r) = None \/
   (exists sc, Reporter.screenshots_settings (Reporter.settings r) = Some sc
               /\ Reporter.on_error sc = true) /\
   JS.toBoolean content = true /\
   Reporter.currentTestCase (Reporter.testResults r) = None) /\
  (forall sc,
      Reporter.screenshots_settings (Reporter.settings r) = Some sc ->
      Reporter.on_error sc && JS.toBoolean content = false ->
      Report.saveErrorScreenshot getFileName result content r
      = Some (r, [])).
Proof.
  unfold Report.saveErrorScreenshot, Reporter.currentTest. split.
  - destruct (Reporter.screenshots_settings (Reporter.settings r))
      as [sc |]; [| split; auto].
    destruct (Reporter.on_error sc) eqn:Hon; simpl.
    + destruct (JS.toBoolean content) eqn:Hc.
      * destruct (Reporter.currentTestCase (Reporter.testResults r)).
        -- split; [discriminate |].
           intros [H | (_ & _ & H)]; discriminate.
        -- split; [| reflexivity]. intros _. right.
           split; [now exists sc | now split].
      * split; [discriminate |].
        intros [H | (_ & H & _)]; discriminate.
    + split; [discriminate |].
      intros [H | ((sc' & Hsc & Hon') & _)]; [discriminate |].
      injection Hsc as <-. congruence.
  - intros sc Hsc Hoff. now rewrite Hsc, Hoff.
Qed.

Lemma printSimplifiedTestResult_passed_witness :
  exists line : string,
    Report.printSimplifiedTestResult Sample.console true 5 false
                                     Sample.failing
    = Some [Report.ConsoleLog line].
Proof.
  apply (proj2 (printSimplifiedTestResult_passed
                  Sample.console true 5 false Sample.failing)).
  discriminate.
Defined.

Lemma saveErrorScreenshot_throws_iff_witness :
  Report.saveErrorScreenshot Scenario.fileName_of JS.VUndefined JS.VUndefined
                             Sample.error_only
  = Some (Sample.error_only, []).
Proof.
  apply (proj2 (saveErrorScreenshot_throws_iff
                  Scenario.fileName_of JS.VUndefined JS.VUndefined
                  Sample.error_only)
               (Reporter.mkScreenshotSettings false true false "screens"));
    reflexivity.
Defined.
